(** * The Windows plugin registrant of Aniya

    A verification development for
    [windows/flutter/generated_plugin_registrant.cc].

    The file holds one function, [RegisterPlugins], a straight line of ten
    statements.  Each statement asks the plugin registry for the registrar of
    one plugin, by a string literal, and hands the registrar to the
    registration entry point of that plugin.  The registry and the ten entry
    points are external code: the function is modelled as a program over
    these two kinds of calls, and run against an arbitrary host. *)

From stdpp Require Import base strings list.

Set Default Proof Using "Type".

(** ** Values exchanged with the host *)

(** Modelled from the spec: the declaration of the registrar handle type
    [FlutterDesktopPluginRegistrarRef] is not part of the sources at hand.
    The spec calls it a handle obtained from the registry that may be null;
    it is taken as an opaque pointer, an address, with 0 for the null
    pointer.  The registrant never computes on it. *)
Definition FlutterDesktopPluginRegistrarRef : Type := N.

Definition nullptr : FlutterDesktopPluginRegistrarRef := 0%N.

(** The ten registration entry points, declared by the ten plugin headers
    the file includes, in the order of their first use. *)
Inductive EntryPoint : Type :=
| DartotsuExtensionBridgePluginCApiRegisterWithRegistrar
| DesktopWebviewWindowPluginRegisterWithRegistrar
| FlutterInappwebviewWindowsPluginCApiRegisterWithRegistrar
| FlutterQjsPluginRegisterWithRegistrar
| FlutterSecureStorageWindowsPluginRegisterWithRegistrar
| IsarFlutterLibsPluginRegisterWithRegistrar
| MediaKitLibsWindowsVideoPluginCApiRegisterWithRegistrar
| MediaKitVideoPluginCApiRegisterWithRegistrar
| UrlLauncherWindowsRegisterWithRegistrar
| WindowToFrontPluginRegisterWithRegistrar.

#[global] Instance EntryPoint_eq_dec : EqDecision EntryPoint.
Proof. solve_decision. Defined.

(** ** Programs over the two external calls

    A program either returns, or calls [registry->GetRegistrarForPlugin] and
    continues with the registrar it gets back, or calls an entry point on a
    registrar and continues. *)
Inductive Prog (A : Type) : Type :=
| Ret (a : A)
| Lookup (plugin_name : string)
         (k : FlutterDesktopPluginRegistrarRef → Prog A)
| Invoke (f : EntryPoint) (registrar : FlutterDesktopPluginRegistrarRef)
         (k : Prog A).

Arguments Ret {A} a.
Arguments Lookup {A} plugin_name k.
Arguments Invoke {A} f registrar k.

Fixpoint bind {A B : Type} (p : Prog A) (g : A → Prog B) : Prog B :=
  match p with
  | Ret a => g a
  | Lookup n k => Lookup n (λ r, bind (k r) g)
  | Invoke f r k => Invoke f r (bind k g)
  end.

#[global] Instance Prog_ret : MRet Prog := @Ret.
#[global] Instance Prog_bind : MBind Prog := λ A B g p, bind p g.

(** [registry->GetRegistrarForPlugin(plugin_name)] *)
Definition GetRegistrarForPlugin (plugin_name : string)
  : Prog FlutterDesktopPluginRegistrarRef :=
  Lookup plugin_name Ret.

(** A call [f(arg)] of an entry point: the argument is evaluated first, then
    [f] is entered with its value.  All ten entry points return [void]. *)
Definition call (f : EntryPoint)
    (arg : Prog FlutterDesktopPluginRegistrarRef) : Prog unit :=
  registrar ← arg; Invoke f registrar (Ret tt).

Coercion call : EntryPoint >-> Funclass.

(** ** The function of the source file *)

Definition RegisterPlugins : Prog unit :=
  DartotsuExtensionBridgePluginCApiRegisterWithRegistrar
      (GetRegistrarForPlugin "DartotsuExtensionBridgePluginCApi");;
  DesktopWebviewWindowPluginRegisterWithRegistrar
      (GetRegistrarForPlugin "DesktopWebviewWindowPlugin");;
  FlutterInappwebviewWindowsPluginCApiRegisterWithRegistrar
      (GetRegistrarForPlugin "FlutterInappwebviewWindowsPluginCApi");;
  FlutterQjsPluginRegisterWithRegistrar
      (GetRegistrarForPlugin "FlutterQjsPlugin");;
  FlutterSecureStorageWindowsPluginRegisterWithRegistrar
      (GetRegistrarForPlugin "FlutterSecureStorageWindowsPlugin");;
  IsarFlutterLibsPluginRegisterWithRegistrar
      (GetRegistrarForPlugin "IsarFlutterLibsPlugin");;
  MediaKitLibsWindowsVideoPluginCApiRegisterWithRegistrar
      (GetRegistrarForPlugin "MediaKitLibsWindowsVideoPluginCApi");;
  MediaKitVideoPluginCApiRegisterWithRegistrar
      (GetRegistrarForPlugin "MediaKitVideoPluginCApi");;
  UrlLauncherWindowsRegisterWithRegistrar
      (GetRegistrarForPlugin "UrlLauncherWindows");;
  WindowToFrontPluginRegisterWithRegistrar
      (GetRegistrarForPlugin "WindowToFrontPlugin").

(** ** Hosts and runs *)

(** What an external call does: it returns a value, or a C++ exception
    leaves it. *)
Inductive Outcome (Exc A : Type) : Type :=
| Returned (a : A)
| Threw (e : Exc).

Arguments Returned {Exc A} a.
Arguments Threw {Exc A} e.

(** The host side of the calls: the registry object behind the [registry]
    pointer and the ten plugin libraries, acting on a host state [W] that
    the registrant cannot reach otherwise. *)
Record Host (W Exc : Type) : Type := {
  registrar_for_plugin :
    string → W → W * Outcome Exc FlutterDesktopPluginRegistrarRef;
  register_with_registrar :
    EntryPoint → FlutterDesktopPluginRegistrarRef → W → W * Outcome Exc unit
}.

Arguments registrar_for_plugin {W Exc} _ _ _.
Arguments register_with_registrar {W Exc} _ _ _ _.

(** One entry of the call log: the call made and how it ended. *)
Inductive Event (Exc : Type) : Type :=
| EvLookup (plugin_name : string)
           (res : Outcome Exc FlutterDesktopPluginRegistrarRef)
| EvInvoke (f : EntryPoint) (registrar : FlutterDesktopPluginRegistrarRef)
           (res : Outcome Exc unit).

Arguments EvLookup {Exc} plugin_name res.
Arguments EvInvoke {Exc} f registrar res.

Record Run (W Exc A : Type) : Type := {
  final : W;
  log : list (Event Exc);
  result : Outcome Exc A
}.

Arguments final {W Exc A} _.
Arguments log {W Exc A} _.
Arguments result {W Exc A} _.

Definition logged {W Exc A} (ev : Event Exc) (r : Run W Exc A) : Run W Exc A :=
  {| final := final r; log := ev :: log r; result := result r |}.

(** Running a program: there is no handler in the source, so an exception
    leaving an external call leaves the program at once. *)
Fixpoint exec {W Exc A} (h : Host W Exc) (p : Prog A) (w : W) : Run W Exc A :=
  match p with
  | Ret a => {| final := w; log := []; result := Returned a |}
  | Lookup n k =>
      match registrar_for_plugin h n w with
      | (w', Returned r) => logged (EvLookup n (Returned r)) (exec h (k r) w')
      | (w', Threw e) =>
          {| final := w'; log := [EvLookup n (Threw e)]; result := Threw e |}
      end
  | Invoke f r k =>
      match register_with_registrar h f r w with
      | (w', Returned u) => logged (EvInvoke f r (Returned u)) (exec h k w')
      | (w', Threw e) =>
          {| final := w'; log := [EvInvoke f r (Threw e)]; result := Threw e |}
      end
  end.

(** A registry, with the plugin libraries, none of whose calls throws: each
    lookup returns a registrar and each entry point returns.  [nothrow]
    makes it a [Host]. *)
Record Registry (W : Type) : Type := {
  lookup_registrar : string → W → FlutterDesktopPluginRegistrarRef * W;
  enter : EntryPoint → FlutterDesktopPluginRegistrarRef → W → W
}.

Arguments lookup_registrar {W} _ _ _.
Arguments enter {W} _ _ _ _.

Definition nothrow {W} (Exc : Type) (g : Registry W) : Host W Exc :=
  {| registrar_for_plugin n w :=
       let '(r, w') := lookup_registrar g n w in (w', Returned r);
     register_with_registrar f r w := (enter g f r w, Returned tt) |}.

(** ** Reading a call log *)

Definition lookup_names {Exc} (evs : list (Event Exc)) : list string :=
  omap (λ ev, match ev with EvLookup n _ => Some n | _ => None end) evs.

Definition lookup_results {Exc} (evs : list (Event Exc))
  : list (string * FlutterDesktopPluginRegistrarRef) :=
  omap (λ ev, match ev with
              | EvLookup n (Returned r) => Some (n, r)
              | _ => None
              end) evs.

Definition registrations {Exc} (evs : list (Event Exc))
  : list (EntryPoint * FlutterDesktopPluginRegistrarRef) :=
  omap (λ ev, match ev with EvInvoke f r _ => Some (f, r) | _ => None end) evs.



(** ** The fixed lists of the source *)

Definition plugin_names : list string :=
  [ "DartotsuExtensionBridgePluginCApi";
    "DesktopWebviewWindowPlugin";
    "FlutterInappwebviewWindowsPluginCApi";
    "FlutterQjsPlugin";
    "FlutterSecureStorageWindowsPlugin";
    "IsarFlutterLibsPlugin";
    "MediaKitLibsWindowsVideoPluginCApi";
    "MediaKitVideoPluginCApi";
    "UrlLauncherWindows";
    "WindowToFrontPlugin" ].

Definition entry_points : list EntryPoint :=
  [ DartotsuExtensionBridgePluginCApiRegisterWithRegistrar;
    DesktopWebviewWindowPluginRegisterWithRegistrar;
    FlutterInappwebviewWindowsPluginCApiRegisterWithRegistrar;
    FlutterQjsPluginRegisterWithRegistrar;
    FlutterSecureStorageWindowsPluginRegisterWithRegistrar;
    IsarFlutterLibsPluginRegisterWithRegistrar;
    MediaKitLibsWindowsVideoPluginCApiRegisterWithRegistrar;
    MediaKitVideoPluginCApiRegisterWithRegistrar;
    UrlLauncherWindowsRegisterWithRegistrar;
    WindowToFrontPluginRegisterWithRegistrar ].

(** The C symbol of an entry point. *)
Definition symbol (f : EntryPoint) : string :=
  match f with
  | DartotsuExtensionBridgePluginCApiRegisterWithRegistrar =>
      "DartotsuExtensionBridgePluginCApiRegisterWithRegistrar"
  | DesktopWebviewWindowPluginRegisterWithRegistrar =>
      "DesktopWebviewWindowPluginRegisterWithRegistrar"
  | FlutterInappwebviewWindowsPluginCApiRegisterWithRegistrar =>
      "FlutterInappwebviewWindowsPluginCApiRegisterWithRegistrar"
  | FlutterQjsPluginRegisterWithRegistrar =>
      "FlutterQjsPluginRegisterWithRegistrar"
  | FlutterSecureStorageWindowsPluginRegisterWithRegistrar =>
      "FlutterSecureStorageWindowsPluginRegisterWithRegistrar"
  | IsarFlutterLibsPluginRegisterWithRegistrar =>
      "IsarFlutterLibsPluginRegisterWithRegistrar"
  | MediaKitLibsWindowsVideoPluginCApiRegisterWithRegistrar =>
      "MediaKitLibsWindowsVideoPluginCApiRegisterWithRegistrar"
  | MediaKitVideoPluginCApiRegisterWithRegistrar =>
      "MediaKitVideoPluginCApiRegisterWithRegistrar"
  | UrlLauncherWindowsRegisterWithRegistrar =>
      "UrlLauncherWindowsRegisterWithRegistrar"
  | WindowToFrontPluginRegisterWithRegistrar =>
      "WindowToFrontPluginRegisterWithRegistrar"
  end.

(** The plugin an entry point belongs to: its symbol without the suffix
    [RegisterWithRegistrar] (21 characters). *)
Definition plugin_identifier (f : EntryPoint) : string :=
  let s := symbol f in String.substring 0 (String.length s - 21) s.

(** The statements of [RegisterPlugins] as a table: identifier looked up,
    entry point called. *)
Definition plugin_table : list (string * EntryPoint) :=
  zip plugin_names entry_points.

(** The registrant the spec describes: for each listed plugin, get the
    registrar for its identifier, then enter its entry point with it. *)
Fixpoint register_all (l : list (string * EntryPoint)) : Prog unit :=
  match l with
  | [] => Ret tt
  | (n, f) :: l' => f (GetRegistrarForPlugin n);; register_all l'
  end.

(** ** The host state a log accounts for *)

(** Replaying a log: the host state after the calls of the log were made,
    one after the other, from [w]. *)
Fixpoint replay {W Exc} (h : Host W Exc) (evs : list (Event Exc)) (w : W) : W :=
  match evs with
  | [] => w
  | EvLookup n _ :: evs' => replay h evs' (registrar_for_plugin h n w).1
  | EvInvoke f r _ :: evs' => replay h evs' (register_with_registrar h f r w).1
  end.

(** A log is faithful when each entry records how the host ended that call
    in the state the earlier calls left. *)
Fixpoint faithful {W Exc} (h : Host W Exc) (evs : list (Event Exc)) (w : W)
  : Prop :=
  match evs with
  | [] => True
  | EvLookup n res :: evs' =>
      (registrar_for_plugin h n w).2 = res
      ∧ faithful h evs' (registrar_for_plugin h n w).1
  | EvInvoke f r res :: evs' =>
      (register_with_registrar h f r w).2 = res
      ∧ faithful h evs' (register_with_registrar h f r w).1
  end.

(** The log of a pass in which every call returned: row by row, the lookup
    of the identifier, then the entry point entered with the registrar the
    lookup returned. *)
Definition row_events {Exc}
    (row : string * EntryPoint * FlutterDesktopPluginRegistrarRef)
  : list (Event Exc) :=
  let '(n, f, r) := row in
  [EvLookup n (Returned r); EvInvoke f r (Returned tt)].

Definition forwarded_log {Exc} (l : list (string * EntryPoint))
    (rs : list FlutterDesktopPluginRegistrarRef) : list (Event Exc) :=
  zip l rs ≫= row_events.

(** A pass over the table against a host that does not throw, written
    without the program: the final state and the registrars handed out. *)
Fixpoint pass {W} (g : Registry W) (l : list (string * EntryPoint)) (w : W)
  : W * list FlutterDesktopPluginRegistrarRef :=
  match l with
  | [] => (w, [])
  | (n, f) :: l' =>
      let '(r, w1) := lookup_registrar g n w in
      let '(w2, rs) := pass g l' (enter g f r w1) in
      (w2, r :: rs)
  end.

(** Two mock hosts.  [mock_registry marker] answers the lookup of [id] with
    [marker id]; its state is the list of the registration calls it has
    seen, each as the plugin identifier and the registrar received. *)
Definition mock_registry (marker : string → FlutterDesktopPluginRegistrarRef)
  : Registry (list (string * FlutterDesktopPluginRegistrarRef)) :=
  {| lookup_registrar id calls := (marker id, calls);
     enter f r calls := calls ++ [(plugin_identifier f, r)] |}.

(** [null_registry] has no registrar for any plugin: every lookup returns
    the null pointer.  Its state counts the entry points entered. *)
Definition null_registry : Registry nat :=
  {| lookup_registrar _ w := (nullptr, w);
     enter _ _ w := S w |}.

(** [failing_host] throws from the registration of the fourth plugin. *)
Definition failing_host : Host nat string :=
  {| registrar_for_plugin id w := (w, Returned (N.of_nat (String.length id)));
     register_with_registrar f r w :=
       if decide (f = FlutterQjsPluginRegisterWithRegistrar)
       then (w, Threw "flutter_qjs: registration failed")
       else (S w, Returned tt) |}.

(** A registry that hands out a fresh registrar at each lookup: its state
    is the next address to hand out. *)
Definition counter_registry : Registry N :=
  {| lookup_registrar _ next := (next, N.succ next);
     enter _ _ next := next |}.

(** ** Counting calls *)

Definition times_looked_up {Exc} (id : string) (evs : list (Event Exc)) : nat :=
  length (filter (λ n, n = id) (lookup_names evs)).

Definition times_entered {Exc} (f : EntryPoint) (evs : list (Event Exc)) : nat :=
  length (filter (λ c, c.1 = f) (registrations evs)).

Definition times_passed {Exc} (r : FlutterDesktopPluginRegistrarRef)
    (evs : list (Event Exc)) : nat :=
  length (filter (λ c, c.2 = r) (registrations evs)).

Definition times_returned {Exc} (r : FlutterDesktopPluginRegistrarRef)
    (evs : list (Event Exc)) : nat :=
  length (filter (λ c, c.2 = r) (lookup_results evs)).

(** ** The schedule of calls *)

(** Which call an entry of the log is, without the values that went in and
    out: the method of the registry with the identifier asked for, or the
    entry point entered. *)
Inductive CallShape : Type :=
| AskRegistrar (plugin_name : string)
| CallEntryPoint (f : EntryPoint).

Definition shape {Exc} (ev : Event Exc) : CallShape :=
  match ev with
  | EvLookup n _ => AskRegistrar n
  | EvInvoke f _ _ => CallEntryPoint f
  end.

(** The calls of the statements of a table, in the order they are written:
    within a statement the argument, the lookup, comes first. *)
Definition schedule_of (l : list (string * EntryPoint)) : list CallShape :=
  l ≫= λ row, [AskRegistrar row.1; CallEntryPoint row.2].

Definition schedule : list CallShape := schedule_of plugin_table.

Definition failed {Exc A} (o : Outcome Exc A) : bool :=
  match o with
  | Threw _ => true
  | Returned _ => false
  end.

(** A host that lacks one plugin: the lookup of [missing] throws, every
    other lookup returns a registrar, and the entry points count the
    plugins registered. *)
Definition host_without (missing : string) : Host nat string :=
  {| registrar_for_plugin id w :=
       if decide (id = missing)
       then (w, Threw "plugin not found")
       else (w, Returned (N.of_nat (String.length id)));
     register_with_registrar _ _ w := (S w, Returned tt) |}.

(** * Properties of runs *)

(** The source is [register_all] unrolled over the ten rows of the table. *)
Lemma RegisterPlugins_table :
  RegisterPlugins = register_all plugin_table.
Proof. reflexivity. Qed.

Lemma plugin_identifier_table :
  map plugin_identifier entry_points = plugin_names.
Proof. reflexivity. Qed.


Section Runs.
Context {W Exc : Type}.
Implicit Types (h : Host W Exc) (g : Registry W) (w : W).
Implicit Types (l : list (string * EntryPoint)) (evs : list (Event Exc)).

Lemma exec_bind {A B} h (p : Prog A) (k : A → Prog B) w :
  exec h (bind p k) w =
    let r1 := exec h p w in
    match result r1 with
    | Returned a =>
        let r2 := exec h (k a) (final r1) in
        {| final := final r2; log := log r1 ++ log r2; result := result r2 |}
    | Threw e => {| final := final r1; log := log r1; result := Threw e |}
    end.
Proof.
  revert w. induction p as [a|n k' IH|f r p IH]; intros w; simpl.
  - by destruct (exec h (k a) w).
  - destruct (registrar_for_plugin h n w) as [w' [r|e]]; simpl; [|done].
    rewrite IH. simpl. by destruct (result (exec h (k' r) w')).
  - destruct (register_with_registrar h f r w) as [w' [u|e]]; simpl; [|done].
    rewrite IH. simpl. by destruct (result (exec h p w')).
Qed.

(** The host state changes through the logged calls only. *)
Lemma exec_replay {A} h (p : Prog A) w :
  final (exec h p w) = replay h (log (exec h p w)) w
  ∧ faithful h (log (exec h p w)) w.
Proof.
  revert w. induction p as [a|n k IH|f r p IH]; intros w; simpl.
  - done.
  - destruct (registrar_for_plugin h n w) as [w' [r|e]] eqn:E; simpl;
      rewrite E; simpl; [|done].
    destruct (IH r w') as [-> ?]. done.
  - destruct (register_with_registrar h f r w) as [w' [u|e]] eqn:E; simpl;
      rewrite E; simpl; [|done].
    destruct (IH w') as [-> ?]. done.
Qed.


(** One row of the table, run against any host. *)
Lemma exec_register_all_cons h n f l w :
  exec h (register_all ((n, f) :: l)) w =
    match registrar_for_plugin h n w with
    | (w1, Returned r) =>
        logged (EvLookup n (Returned r))
          match register_with_registrar h f r w1 with
          | (w2, Returned u) =>
              logged (EvInvoke f r (Returned u)) (exec h (register_all l) w2)
          | (w2, Threw e) =>
              {| final := w2; log := [EvInvoke f r (Threw e)];
                 result := Threw e |}
          end
    | (w1, Threw e) =>
        {| final := w1; log := [EvLookup n (Threw e)]; result := Threw e |}
    end.
Proof. reflexivity. Qed.

(** Against a host that does not throw, a pass over the table returns,
    leaves the state [pass] computes, and its log is the forwarded log of
    the registrars handed out. *)
Lemma exec_register_all_nothrow g l w :
  exec (nothrow Exc g) (register_all l) w =
    {| final := (pass g l w).1;
       log := forwarded_log l (pass g l w).2;
       result := Returned tt |}.
Proof.
  revert w. induction l as [|[n f] l IH]; intros w; [done|].
  rewrite exec_register_all_cons. simpl.
  destruct (lookup_registrar g n w) as [r w1]. rewrite IH.
  by destruct (pass g l (enter g f r w1)).
Qed.

Lemma pass_length g l w : length (pass g l w).2 = length l.
Proof.
  revert w. induction l as [|[n f] l IH]; intros w; simpl; [done|].
  destruct (lookup_registrar g n w) as [r w1].
  specialize (IH (enter g f r w1)).
  destruct (pass g l (enter g f r w1)). simpl in *. by rewrite IH.
Qed.

(** Reading a forwarded log back. *)
Lemma lookup_names_forwarded l rs :
  length rs = length l → lookup_names (forwarded_log (Exc:=Exc) l rs) = l.*1.
Proof.
  revert rs. induction l as [|[n f] l IH]; intros [|r rs] Hlen;
    simplify_eq/=; [done|]. f_equal. by apply IH.
Qed.

Lemma lookup_results_forwarded l rs :
  length rs = length l →
  lookup_results (forwarded_log (Exc:=Exc) l rs) = zip l.*1 rs.
Proof.
  revert rs. induction l as [|[n f] l IH]; intros [|r rs] Hlen;
    simplify_eq/=; [done|]. f_equal. by apply IH.
Qed.

Lemma registrations_forwarded l rs :
  length rs = length l →
  registrations (forwarded_log (Exc:=Exc) l rs) = zip l.*2 rs.
Proof.
  revert rs. induction l as [|[n f] l IH]; intros [|r rs] Hlen;
    simplify_eq/=; [done|]. f_equal. by apply IH.
Qed.

Lemma forwarded_log_length l rs :
  length rs = length l →
  length (forwarded_log (Exc:=Exc) l rs) = 2 * length l.
Proof.
  unfold forwarded_log. revert rs.
  induction l as [|[n f] l IH]; intros [|r rs] Hlen;
    simplify_eq/=; [done|]. rewrite IH; [lia|done].
Qed.

(** Against any host, throwing or not, the calls made are an initial
    part of the calls of the table, in the order of the table. *)
Lemma lookup_names_prefix h l w :
  lookup_names (log (exec h (register_all l) w)) `prefix_of` l.*1.
Proof.
  revert w. induction l as [|[n f] l IH]; intros w; [done|].
  rewrite exec_register_all_cons.
  destruct (registrar_for_plugin h n w) as [w1 [r|e]]; simpl;
    [|by apply prefix_cons, prefix_nil].
  destruct (register_with_registrar h f r w1) as [w2 [u|e]]; simpl;
    apply prefix_cons; [apply IH|apply prefix_nil].
Qed.

Lemma registrations_prefix h l w :
  (registrations (log (exec h (register_all l) w))).*1 `prefix_of` l.*2.
Proof.
  revert w. induction l as [|[n f] l IH]; intros w; [done|].
  rewrite exec_register_all_cons.
  destruct (registrar_for_plugin h n w) as [w1 [r|e]]; simpl;
    [|apply prefix_nil].
  destruct (register_with_registrar h f r w1) as [w2 [u|e]]; simpl;
    apply prefix_cons; [apply IH|apply prefix_nil].
Qed.

(** Against any host, each entry point entered received the registrar
    returned by the lookup just before it. *)
Lemma registrations_lookup_results h l w :
  (registrations (log (exec h (register_all l) w))).*2
  = take (length (registrations (log (exec h (register_all l) w))))
      (lookup_results (log (exec h (register_all l) w))).*2.
Proof.
  revert w. induction l as [|[n f] l IH]; intros w; [done|].
  rewrite exec_register_all_cons.
  destruct (registrar_for_plugin h n w) as [w1 [r|e]]; simpl; [|done].
  destruct (register_with_registrar h f r w1) as [w2 [u|e]]; simpl;
    [|done]. f_equal. apply IH.
Qed.

End Runs.

Lemma count_NoDup `{EqDecision A} (x : A) (l : list A) :
  NoDup l → length (filter (λ y, y = x) l) = if decide (x ∈ l) then 1 else 0.
Proof.
  induction 1 as [|y l Hy _ IH]; [done|].
  rewrite filter_cons. destruct (decide (y = x)) as [->|Hne]; simpl.
  - rewrite decide_True; [|left]. rewrite IH, decide_False; done.
  - rewrite IH. destruct (decide (x ∈ l)) as [Hin|Hin].
    + rewrite decide_True; [done|by right].
    + rewrite decide_False; [done|]. rewrite elem_of_cons. by intros [->|?].
Qed.

Lemma count_prefix_NoDup `{EqDecision A} (x : A) (l1 l2 : list A) :
  l1 `prefix_of` l2 → NoDup l2 → length (filter (λ y, y = x) l1) ≤ 1.
Proof.
  intros [k ->] [Hl1 _]%NoDup_app. rewrite count_NoDup by done.
  case_decide; lia.
Qed.

Lemma plugin_names_NoDup : NoDup plugin_names.
Proof. apply (bool_decide_unpack _). by vm_compute. Qed.

Lemma entry_points_NoDup : NoDup entry_points.
Proof. apply (bool_decide_unpack _). by vm_compute. Qed.

Lemma entry_points_all (f : EntryPoint) : f ∈ entry_points.
Proof. destruct f; apply (bool_decide_unpack _); by vm_compute. Qed.

(** ** More on passes *)

Section Passes.
Context {W Exc : Type}.
Implicit Types (h : Host W Exc) (w : W) (l : list (string * EntryPoint)).

(** A pass that returns made two calls for each row; one that throws made
    at least the call that threw, and no more than two for each row. *)
Lemma exec_register_all_length h l w :
  match result (exec h (register_all l) w) with
  | Returned _ => length (log (exec h (register_all l) w)) = 2 * length l
  | Threw _ => 1 ≤ length (log (exec h (register_all l) w)) ≤ 2 * length l
  end.
Proof.
  revert w. induction l as [|[n f] l IH]; intros w; [done|].
  rewrite exec_register_all_cons.
  destruct (registrar_for_plugin h n w) as [w1 [r|e]]; simpl; [|lia].
  destruct (register_with_registrar h f r w1) as [w2 [u|e]]; simpl; [|lia].
  specialize (IH w2).
  destruct (result (exec h (register_all l) w2)); lia.
Qed.

End Passes.

Lemma count_fmap {A B} `{EqDecision B} (k : A → B) (y : B) (c : list A) :
  length (filter (λ x, k x = y) c) = length (filter (λ z, z = y) (k <$> c)).
Proof.
  induction c as [|x c IH]; [done|].
  rewrite fmap_cons, !filter_cons.
  destruct (decide (k x = y)); simpl; by rewrite IH.
Qed.

(** In a forwarded log of the table of the source, a lookup and the
    registration at the same position concern the same plugin and the same
    registrar. *)
Lemma zip_rows_Forall2 (l : list (string * EntryPoint))
    (rs : list FlutterDesktopPluginRegistrarRef) :
  Forall (λ row, plugin_identifier row.2 = row.1) l →
  Forall2 (λ lk rg, plugin_identifier rg.1 = lk.1 ∧ rg.2 = lk.2)
    (zip l.*1 rs) (zip l.*2 rs).
Proof.
  intros Hl. revert rs.
  induction Hl as [|[n f] l Hrow _ IH]; intros [|r rs]; simpl;
    constructor; auto.
Qed.

Lemma plugin_table_rows :
  Forall (λ row, plugin_identifier row.2 = row.1) plugin_table.
Proof. repeat constructor. Qed.

Lemma prefix_is_take {A} (l1 l2 : list A) :
  l1 `prefix_of` l2 → l1 = take (length l1) l2.
Proof. intros [k ->]. by rewrite take_app_length. Qed.

(** * The run of [RegisterPlugins] against a host that does not throw *)

Lemma RegisterPlugins_nothrow {W} Exc (g : Registry W) (w : W) :
  exec (nothrow Exc g) RegisterPlugins w =
    {| final := (pass g plugin_table w).1;
       log := forwarded_log plugin_table (pass g plugin_table w).2;
       result := Returned tt |}.
Proof. rewrite RegisterPlugins_table. apply exec_register_all_nothrow. Qed.

Lemma RegisterPlugins_pass_length {W} (g : Registry W) (w : W) :
  length (pass g plugin_table w).2 = 10.
Proof. by rewrite pass_length. Qed.

Lemma RegisterPlugins_lookup_names {W} Exc (g : Registry W) (w : W) :
  lookup_names (log (exec (nothrow Exc g) RegisterPlugins w)) = plugin_names.
Proof.
  rewrite RegisterPlugins_nothrow. simpl.
  rewrite lookup_names_forwarded by apply RegisterPlugins_pass_length. done.
Qed.

Lemma RegisterPlugins_lookup_results {W} Exc (g : Registry W) (w : W) :
  lookup_results (log (exec (nothrow Exc g) RegisterPlugins w))
  = zip plugin_names (pass g plugin_table w).2.
Proof.
  rewrite RegisterPlugins_nothrow. simpl.
  rewrite lookup_results_forwarded by apply RegisterPlugins_pass_length. done.
Qed.

Lemma RegisterPlugins_registrations {W} Exc (g : Registry W) (w : W) :
  registrations (log (exec (nothrow Exc g) RegisterPlugins w))
  = zip entry_points (pass g plugin_table w).2.
Proof.
  rewrite RegisterPlugins_nothrow. simpl.
  rewrite registrations_forwarded by apply RegisterPlugins_pass_length. done.
Qed.

Lemma RegisterPlugins_entered {W} Exc (g : Registry W) (w : W) :
  (registrations (log (exec (nothrow Exc g) RegisterPlugins w))).*1
  = entry_points.
Proof.
  rewrite RegisterPlugins_registrations. apply fst_zip.
  by rewrite RegisterPlugins_pass_length.
Qed.

Lemma RegisterPlugins_passed {W} Exc (g : Registry W) (w : W) :
  (registrations (log (exec (nothrow Exc g) RegisterPlugins w))).*2
  = (pass g plugin_table w).2.
Proof.
  rewrite RegisterPlugins_registrations. apply snd_zip.
  by rewrite RegisterPlugins_pass_length.
Qed.

Lemma RegisterPlugins_handed_out {W} Exc (g : Registry W) (w : W) :
  (lookup_results (log (exec (nothrow Exc g) RegisterPlugins w))).*2
  = (pass g plugin_table w).2.
Proof.
  rewrite RegisterPlugins_lookup_results. apply snd_zip.
  by rewrite RegisterPlugins_pass_length.
Qed.

Lemma RegisterPlugins_lookups_prefix {W Exc} (h : Host W Exc) (w : W) :
  lookup_names (log (exec h RegisterPlugins w)) `prefix_of` plugin_names.
Proof. rewrite RegisterPlugins_table. apply (lookup_names_prefix h). Qed.

Lemma RegisterPlugins_entered_prefix {W Exc} (h : Host W Exc) (w : W) :
  (registrations (log (exec h RegisterPlugins w))).*1 `prefix_of` entry_points.
Proof. rewrite RegisterPlugins_table. apply (registrations_prefix h). Qed.

Lemma RegisterPlugins_result {W Exc} (h : Host W Exc) (w : W) :
  match result (exec h RegisterPlugins w) with
  | Returned _ => length (log (exec h RegisterPlugins w)) = 20
  | Threw _ => 1 ≤ length (log (exec h RegisterPlugins w)) ≤ 20
  end.
Proof. rewrite RegisterPlugins_table. apply exec_register_all_length. Qed.

(** A run against [failing_host]: three plugins are registered, the fourth
    registration throws, and nothing is called after it. *)
Example RegisterPlugins_failing_host :
  exec failing_host RegisterPlugins 0 =
    {| final := 3;
       log :=
         [ EvLookup "DartotsuExtensionBridgePluginCApi" (Returned 33%N);
           EvInvoke DartotsuExtensionBridgePluginCApiRegisterWithRegistrar
             33%N (Returned tt);
           EvLookup "DesktopWebviewWindowPlugin" (Returned 26%N);
           EvInvoke DesktopWebviewWindowPluginRegisterWithRegistrar
             26%N (Returned tt);
           EvLookup "FlutterInappwebviewWindowsPluginCApi" (Returned 36%N);
           EvInvoke FlutterInappwebviewWindowsPluginCApiRegisterWithRegistrar
             36%N (Returned tt);
           EvLookup "FlutterQjsPlugin" (Returned 16%N);
           EvInvoke FlutterQjsPluginRegisterWithRegistrar 16%N
             (Threw "flutter_qjs: registration failed") ];
       result := Threw "flutter_qjs: registration failed" |}.
Proof. reflexivity. Qed.

(** * Runs against hosts that may throw *)

Section Partial.
Context {W Exc : Type}.
Implicit Types (h : Host W Exc) (w : W) (l : list (string * EntryPoint)).

(** A pass that returned made every call of the table: its log is the
    forwarded log of the registrars the lookups returned. *)
Lemma exec_register_all_returned h l w :
  result (exec h (register_all l) w) = Returned tt →
  log (exec h (register_all l) w)
  = forwarded_log l (lookup_results (log (exec h (register_all l) w))).*2
  ∧ length (lookup_results (log (exec h (register_all l) w))) = length l.
Proof.
  revert w. induction l as [|[n f] l IH]; intros w; [done|].
  rewrite exec_register_all_cons.
  destruct (registrar_for_plugin h n w) as [w1 [r|e]]; simpl; [|done].
  destruct (register_with_registrar h f r w1) as [w2 [[]|e]]; simpl; [|done].
  intros Hret. destruct (IH w2 Hret) as [Hlog Hlen].
  split; [|by rewrite Hlen].
  unfold forwarded_log in *. simpl. do 2 f_equal. exact Hlog.
Qed.

(** The calls made are the first calls of the schedule of the table. *)
Lemma exec_register_all_schedule h l w :
  shape <$> log (exec h (register_all l) w)
  = take (length (log (exec h (register_all l) w))) (schedule_of l).
Proof.
  revert w. induction l as [|[n f] l IH]; intros w; [done|].
  rewrite exec_register_all_cons.
  destruct (registrar_for_plugin h n w) as [w1 [r|e]]; simpl; [|done].
  destruct (register_with_registrar h f r w1) as [w2 [u|e]]; simpl; [|done].
  do 2 f_equal. apply IH.
Qed.

(** A registrar that a lookup returned is passed to the entry point of the
    row at once, also in a pass that ends in an exception. *)
Lemma exec_register_all_paired h l w :
  Forall (λ row, plugin_identifier row.2 = row.1) l →
  Forall2 (λ lk rg, plugin_identifier rg.1 = lk.1 ∧ rg.2 = lk.2)
    (lookup_results (log (exec h (register_all l) w)))
    (registrations (log (exec h (register_all l) w)))
  ∧ length (lookup_names (log (exec h (register_all l) w)))
    ≤ S (length (registrations (log (exec h (register_all l) w)))).
Proof.
  intros Hl. revert w.
  induction Hl as [|[n f] l Hrow _ IH]; intros w; [split; [constructor|simpl; lia]|].
  rewrite exec_register_all_cons.
  destruct (registrar_for_plugin h n w) as [w1 [r|e]]; simpl;
    [|split; [constructor|lia]].
  destruct (register_with_registrar h f r w1) as [w2 [u|e]]; simpl.
  - destruct (IH w2) as [Hpairs Hlen]. split; [by constructor|lia].
  - split; [by repeat constructor|lia].
Qed.

(** Two hosts that answer alike on the identifiers and entry points of the
    table give the same run. *)
Lemma exec_register_all_agree h1 h2 l w :
  (∀ id, id ∈ l.*1 →
         ∀ w', registrar_for_plugin h1 id w' = registrar_for_plugin h2 id w') →
  (∀ f, f ∈ l.*2 →
        ∀ r w', register_with_registrar h1 f r w'
                = register_with_registrar h2 f r w') →
  exec h1 (register_all l) w = exec h2 (register_all l) w.
Proof.
  revert w. induction l as [|[n f] l IH]; intros w Hlk Hen; [done|].
  rewrite !exec_register_all_cons.
  rewrite <-(Hlk n) by (simpl; left).
  destruct (registrar_for_plugin h1 n w) as [w1 [r|e]]; [|done].
  rewrite <-(Hen f) by (simpl; left).
  destruct (register_with_registrar h1 f r w1) as [w2 [u|e]]; [|done].
  rewrite IH; [done| |].
  - intros id Hid. apply Hlk. simpl. by right.
  - intros f' Hf'. apply Hen. simpl. by right.
Qed.

(** A property of the host state that the calls of the table keep holds at
    the end of the pass, however the pass ends. *)
Lemma exec_register_all_invariant (I : W → Prop) h l w :
  (∀ id w', id ∈ l.*1 → I w' → I (registrar_for_plugin h id w').1) →
  (∀ f r w', f ∈ l.*2 → I w' → I (register_with_registrar h f r w').1) →
  I w → I (final (exec h (register_all l) w)).
Proof.
  revert w. induction l as [|[n f] l IH]; intros w Hlk Hen Hw; [done|].
  rewrite exec_register_all_cons.
  pose proof (Hlk n w ltac:(simpl; left) Hw) as H1.
  destruct (registrar_for_plugin h n w) as [w1 [r|e]]; simpl in *; [|done].
  pose proof (Hen f r w1 ltac:(simpl; left) H1) as H2.
  destruct (register_with_registrar h f r w1) as [w2 [u|e]]; simpl in *;
    [|done].
  apply IH; [| |done].
  - intros id w' Hid. apply Hlk. by right.
  - intros f' r' w' Hf'. apply Hen. by right.
Qed.

(** When the lookup of the identifier of row [i] always throws, the pass
    throws, and no entry point from row [i] on is entered. *)
Lemma exec_register_all_missing h l w (i : nat) (id : string) :
  l.*1 !! i = Some id →
  (∀ w', failed (registrar_for_plugin h id w').2 = true) →
  failed (result (exec h (register_all l) w)) = true
  ∧ length (registrations (log (exec h (register_all l) w))) ≤ i
  ∧ length (lookup_names (log (exec h (register_all l) w))) ≤ S i.
Proof.
  intros Hi Hmiss. revert i w Hi.
  induction l as [|[n f] l IH]; intros i w Hi; [done|].
  rewrite exec_register_all_cons.
  destruct i as [|i]; simpl in Hi.
  - injection Hi as ->. specialize (Hmiss w).
    destruct (registrar_for_plugin h id w) as [w1 [r|e]]; simpl in *;
      [done|]. split_and!; [done|lia|lia].
  - destruct (registrar_for_plugin h n w) as [w1 [r|e]]; simpl;
      [|split_and!; [done|lia|lia]].
    destruct (register_with_registrar h f r w1) as [w2 [u|e]]; simpl;
      [|split_and!; [done|lia|lia]].
    destruct (IH i w2 Hi) as (? & ? & ?). split_and!; [done|lia|lia].
Qed.

End Partial.

Lemma take_prefix_le {A} (l : list A) (n m : nat) :
  n ≤ m → take n l `prefix_of` take m l.
Proof.
  intros Hnm. replace (take n l) with (take n (take m l)).
  - apply prefix_take.
  - rewrite take_take. f_equal. lia.
Qed.

Lemma plugin_identifier_listed (f : EntryPoint) :
  plugin_identifier f ∈ plugin_names.
Proof. destruct f; apply (bool_decide_unpack _); by vm_compute. Qed.

Lemma unlisted_plugin_names :
  ("PluginA" ∉ plugin_names) ∧ ("PluginB" ∉ plugin_names).
Proof. split; apply (bool_decide_unpack _); by vm_compute. Qed.


Lemma RegisterPlugins_paired {W Exc} (h : Host W Exc) (w : W) :
  Forall2 (λ lk rg, plugin_identifier rg.1 = lk.1 ∧ rg.2 = lk.2)
    (lookup_results (log (exec h RegisterPlugins w)))
    (registrations (log (exec h RegisterPlugins w))).
Proof.
  rewrite RegisterPlugins_table.
  apply exec_register_all_paired, plugin_table_rows.
Qed.

(** * What [RegisterPlugins] guarantees *)

(** C1: for every registry, one call of [RegisterPlugins] looks up each of
    the ten plugin identifiers exactly once and enters each of the ten
    registration entry points exactly once: the identifiers looked up are
    the ten listed ones, without duplicate and without omission, no other
    identifier is looked up, ten entry points are entered, one for each
    identifier.  Against a host whose calls may throw, no identifier is
    looked up and no entry point entered more than once. *)
Theorem RegisterPlugins_each_plugin_once {W Exc}
    (g : Registry W) (h : Host W Exc) (w : W) :
  let run := exec (nothrow Exc g) RegisterPlugins w in
  lookup_names (log run) =
    [ "DartotsuExtensionBridgePluginCApi"; "DesktopWebviewWindowPlugin";
      "FlutterInappwebviewWindowsPluginCApi"; "FlutterQjsPlugin";
      "FlutterSecureStorageWindowsPlugin"; "IsarFlutterLibsPlugin";
      "MediaKitLibsWindowsVideoPluginCApi"; "MediaKitVideoPluginCApi";
      "UrlLauncherWindows"; "WindowToFrontPlugin" ]
  ∧ NoDup (lookup_names (log run))
  ∧ (∀ id, times_looked_up id (log run)
           = if decide (id ∈ plugin_names) then 1 else 0)
  ∧ (∀ f, times_entered f (log run) = 1)
  ∧ length (registrations (log run)) = 10
  ∧ length (log run) = 20
  ∧ map (λ c, plugin_identifier c.1) (registrations (log run))
    = lookup_names (log run)
  ∧ (∀ id, times_looked_up id (log (exec h RegisterPlugins w)) ≤ 1)
  ∧ (∀ f, times_entered f (log (exec h RegisterPlugins w)) ≤ 1).
Proof.
  intros run. subst run.
  assert (Hf : ∀ {B} (k : EntryPoint → B) (c : list (EntryPoint * N)),
             map (λ x, k x.1) c = k <$> c.*1).
  { intros B k c. by rewrite <-list_fmap_compose. }
  assert (Hcount : ∀ f (c : list (EntryPoint * N)),
             length (filter (λ x, x.1 = f) c)
             = length (filter (λ y, y = f) c.*1)).
  { intros f c. induction c as [|x c IH]; [done|].
    rewrite fmap_cons, !filter_cons. simpl.
    destruct (decide (x.1 = f)); simpl; by rewrite IH. }
  unfold times_looked_up, times_entered.
  rewrite RegisterPlugins_lookup_names.
  split_and!.
  - done.
  - apply plugin_names_NoDup.
  - intros id. apply count_NoDup, plugin_names_NoDup.
  - intros f. rewrite Hcount, RegisterPlugins_entered.
    rewrite count_NoDup by apply entry_points_NoDup.
    rewrite decide_True; [done|apply entry_points_all].
  - rewrite <-(length_fmap fst), RegisterPlugins_entered. done.
  - rewrite RegisterPlugins_nothrow. simpl.
    rewrite forwarded_log_length by apply RegisterPlugins_pass_length. done.
  - rewrite Hf, RegisterPlugins_entered. done.
  - intros id. eapply count_prefix_NoDup;
      [apply RegisterPlugins_lookups_prefix|apply plugin_names_NoDup].
  - intros f. rewrite Hcount. eapply count_prefix_NoDup;
      [apply RegisterPlugins_entered_prefix|apply entry_points_NoDup].
Qed.

(** C2: for every registry, the ten registrations of [RegisterPlugins] are
    made in the declared order, from [DartotsuExtensionBridgePluginCApi] to
    [WindowToFrontPlugin]: the entry points entered, the plugins they belong
    to, and the sequence a recording mock registry ends with are the
    declared lists, and in the log each lookup comes just before its
    registration.  Against a host that throws, the calls made so far are an
    initial part of this order. *)
Theorem RegisterPlugins_declared_order {W Exc}
    (g : Registry W) (h : Host W Exc)
    (marker : string → FlutterDesktopPluginRegistrarRef) (w : W) :
  let run := exec (nothrow Exc g) RegisterPlugins w in
  let mock := exec (nothrow Exc (mock_registry marker)) RegisterPlugins [] in
  (registrations (log run)).*1 =
    [ DartotsuExtensionBridgePluginCApiRegisterWithRegistrar;
      DesktopWebviewWindowPluginRegisterWithRegistrar;
      FlutterInappwebviewWindowsPluginCApiRegisterWithRegistrar;
      FlutterQjsPluginRegisterWithRegistrar;
      FlutterSecureStorageWindowsPluginRegisterWithRegistrar;
      IsarFlutterLibsPluginRegisterWithRegistrar;
      MediaKitLibsWindowsVideoPluginCApiRegisterWithRegistrar;
      MediaKitVideoPluginCApiRegisterWithRegistrar;
      UrlLauncherWindowsRegisterWithRegistrar;
      WindowToFrontPluginRegisterWithRegistrar ]
  ∧ plugin_identifier <$> (registrations (log run)).*1 =
    [ "DartotsuExtensionBridgePluginCApi"; "DesktopWebviewWindowPlugin";
      "FlutterInappwebviewWindowsPluginCApi"; "FlutterQjsPlugin";
      "FlutterSecureStorageWindowsPlugin"; "IsarFlutterLibsPlugin";
      "MediaKitLibsWindowsVideoPluginCApi"; "MediaKitVideoPluginCApi";
      "UrlLauncherWindows"; "WindowToFrontPlugin" ]
  ∧ log run = forwarded_log plugin_table (lookup_results (log run)).*2
  ∧ (final mock).*1 =
    [ "DartotsuExtensionBridgePluginCApi"; "DesktopWebviewWindowPlugin";
      "FlutterInappwebviewWindowsPluginCApi"; "FlutterQjsPlugin";
      "FlutterSecureStorageWindowsPlugin"; "IsarFlutterLibsPlugin";
      "MediaKitLibsWindowsVideoPluginCApi"; "MediaKitVideoPluginCApi";
      "UrlLauncherWindows"; "WindowToFrontPlugin" ]
  ∧ (registrations (log (exec h RegisterPlugins w))).*1
    `prefix_of` (registrations (log run)).*1.
Proof.
  intros run mock. subst run mock.
  rewrite RegisterPlugins_handed_out, !RegisterPlugins_entered.
  split_and!.
  - done.
  - done.
  - by rewrite RegisterPlugins_nothrow.
  - done.
  - apply RegisterPlugins_entered_prefix.
Qed.

(** C3: for every registry and each of the ten identifiers, the entry point
    of the plugin receives the very registrar the registry returned for the
    identifier.  For a mock registry that answers each identifier with its
    marker, the call log is the ten pairs of identifier and marker in the
    declared order, and holds no other call. *)
Theorem RegisterPlugins_forwards_registrar {W Exc}
    (g : Registry W) (marker : string → FlutterDesktopPluginRegistrarRef)
    (w : W) :
  let run := exec (nothrow Exc g) RegisterPlugins w in
  let handed := (lookup_results (log run)).*2 in
  let mock := exec (nothrow Exc (mock_registry marker)) RegisterPlugins [] in
  faithful (nothrow Exc g) (log run) w
  ∧ length handed = 10
  ∧ lookup_results (log run) = zip plugin_names handed
  ∧ registrations (log run) = zip entry_points handed
  ∧ log run = forwarded_log plugin_table handed
  ∧ final mock =
    [ ("DartotsuExtensionBridgePluginCApi",
       marker "DartotsuExtensionBridgePluginCApi");
      ("DesktopWebviewWindowPlugin", marker "DesktopWebviewWindowPlugin");
      ("FlutterInappwebviewWindowsPluginCApi",
       marker "FlutterInappwebviewWindowsPluginCApi");
      ("FlutterQjsPlugin", marker "FlutterQjsPlugin");
      ("FlutterSecureStorageWindowsPlugin",
       marker "FlutterSecureStorageWindowsPlugin");
      ("IsarFlutterLibsPlugin", marker "IsarFlutterLibsPlugin");
      ("MediaKitLibsWindowsVideoPluginCApi",
       marker "MediaKitLibsWindowsVideoPluginCApi");
      ("MediaKitVideoPluginCApi", marker "MediaKitVideoPluginCApi");
      ("UrlLauncherWindows", marker "UrlLauncherWindows");
      ("WindowToFrontPlugin", marker "WindowToFrontPlugin") ]
  ∧ length (final mock) = 10
  ∧ registrations (log mock) = zip entry_points (marker <$> plugin_names).
Proof.
  intros run handed mock. subst run handed mock.
  rewrite RegisterPlugins_handed_out.
  split_and!.
  - apply exec_replay.
  - apply RegisterPlugins_pass_length.
  - apply RegisterPlugins_lookup_results.
  - apply RegisterPlugins_registrations.
  - by rewrite RegisterPlugins_nothrow.
  - done.
  - done.
  - done.
Qed.

(** C4: [RegisterPlugins] keeps no state.  Calling it twice is a first full
    pass followed by a second full pass that starts from the host state the
    first one left: both passes make the same twenty calls, to the same
    identifiers and entry points in the same order, and against a registry
    whose answers do not change the two logs are the same, registrars
    included. *)
Theorem RegisterPlugins_twice {W Exc}
    (g : Registry W) (marker : string → FlutterDesktopPluginRegistrarRef)
    (w : W) :
  let h := nothrow Exc g in
  let first := exec h RegisterPlugins w in
  let second := exec h RegisterPlugins (final first) in
  let both := exec h (RegisterPlugins;; RegisterPlugins) w in
  let m := nothrow Exc (mock_registry marker) in
  log both = log first ++ log second
  ∧ final both = final second
  ∧ result both = Returned tt
  ∧ lookup_names (log first) = plugin_names
  ∧ lookup_names (log second) = plugin_names
  ∧ (registrations (log first)).*1 = entry_points
  ∧ (registrations (log second)).*1 = entry_points
  ∧ length (log first) = 20
  ∧ length (log second) = 20
  ∧ log (exec m RegisterPlugins (final (exec m RegisterPlugins [])))
    = log (exec m RegisterPlugins []).
Proof.
  intros h first second both m. subst h first second both m.
  change (exec ?h (_;; _) ?w)
    with (exec h (bind RegisterPlugins (λ _, RegisterPlugins)) w).
  rewrite exec_bind. cbv zeta.
  rewrite !RegisterPlugins_lookup_names, !RegisterPlugins_entered.
  rewrite !RegisterPlugins_nothrow. cbn [final log result].
  rewrite !forwarded_log_length by apply RegisterPlugins_pass_length.
  split_and!; done.
Qed.

(** C5, as amended: for every registry, each of the ten registration calls
    receives, unchanged and without any null check, the registrar obtained
    from the registry for the identifier of its plugin, a null registrar
    included; the registrars passed are therefore all non-null exactly when
    the registrars the registry returned are all non-null.  Against a host
    that throws, the registrations made so far received the registrars of
    their lookups in the same way. *)
Theorem RegisterPlugins_registrar_as_obtained {W Exc}
    (g : Registry W) (h : Host W Exc) (w : W) :
  let run := exec (nothrow Exc g) RegisterPlugins w in
  let partial := exec h RegisterPlugins w in
  length (registrations (log run)) = 10
  ∧ (registrations (log run)).*1 = entry_points
  ∧ (lookup_results (log run)).*1 = plugin_names
  ∧ faithful (nothrow Exc g) (log run) w
  ∧ Forall2 (λ lk rg, plugin_identifier rg.1 = lk.1 ∧ rg.2 = lk.2)
      (lookup_results (log run)) (registrations (log run))
  ∧ (registrations (log run)).*2 = (lookup_results (log run)).*2
  ∧ (Forall (λ rg, rg.2 ≠ nullptr) (registrations (log run))
     ↔ Forall (λ lk, lk.2 ≠ nullptr) (lookup_results (log run)))
  ∧ Forall2 (λ lk rg, plugin_identifier rg.1 = lk.1 ∧ rg.2 = lk.2)
      (lookup_results (log partial)) (registrations (log partial)).
Proof.
  intros run partial. subst run partial.
  pose proof (RegisterPlugins_pass_length g w) as Hlen.
  assert (Hsnd : (registrations (log (exec (nothrow Exc g) RegisterPlugins w))).*2
                 = (lookup_results
                      (log (exec (nothrow Exc g) RegisterPlugins w))).*2).
  { by rewrite RegisterPlugins_passed, RegisterPlugins_handed_out. }
  split_and!.
  - rewrite <-(length_fmap fst), RegisterPlugins_entered. done.
  - apply RegisterPlugins_entered.
  - rewrite RegisterPlugins_lookup_results. apply fst_zip. by rewrite Hlen.
  - apply exec_replay.
  - apply RegisterPlugins_paired.
  - exact Hsnd.
  - rewrite <-(Forall_fmap snd (λ r, r ≠ nullptr)).
    rewrite <-(Forall_fmap snd (λ r, r ≠ nullptr) (lookup_results _)).
    by rewrite Hsnd.
  - apply RegisterPlugins_paired.
Qed.

Lemma RegisterPlugins_registrar_as_obtained_witness :
  let run :=
    exec (nothrow unit (mock_registry (λ id, N.of_nat (String.length id))))
      RegisterPlugins [] in
  Forall (λ lk, lk.2 ≠ nullptr) (lookup_results (log run))
  ∧ Forall (λ rg, rg.2 ≠ nullptr) (registrations (log run)).
Proof.
  assert (H : Forall (λ lk : string * FlutterDesktopPluginRegistrarRef,
                        lk.2 ≠ nullptr)
                (lookup_results (log (exec
                   (nothrow unit
                      (mock_registry (λ id, N.of_nat (String.length id))))
                   RegisterPlugins [])))).
  { repeat constructor; discriminate. }
  split; [exact H|].
  destruct (RegisterPlugins_registrar_as_obtained (Exc:=unit)
              (mock_registry (λ id, N.of_nat (String.length id)))
              (nothrow unit
                 (mock_registry (λ id, N.of_nat (String.length id))))
              []) as (_ & _ & _ & _ & _ & _ & Hiff & _).
  apply Hiff. exact H.
Defined.

(** C5 as stated fails: [null_registry] returns the null pointer at every
    lookup, and all ten entry points are entered with the null pointer. *)
Lemma RegisterPlugins_null_registrar_reaches_plugins :
  let run := exec (nothrow unit null_registry) RegisterPlugins 0 in
  registrations (log run) = (λ f, (f, nullptr)) <$> entry_points
  ∧ ¬ Forall (λ rg, rg.2 ≠ nullptr) (registrations (log run)).
Proof.
  split; [reflexivity|].
  intros H. apply Forall_cons_1 in H as [H _]. by apply H.
Qed.


(** C7: against every host, [RegisterPlugins] acts through the calls of its
    log only: the final host state is the state the logged calls produce
    from the initial one, the log holds at most twenty calls, and against a
    registry that does not throw exactly the ten lookups and the ten
    registrations, the registrars passed on as they were returned; the
    function returns nothing (the unit value). *)
Theorem RegisterPlugins_only_registry_calls {W Exc}
    (h : Host W Exc) (g : Registry W) (w : W) :
  let run := exec h RegisterPlugins w in
  let total := exec (nothrow Exc g) RegisterPlugins w in
  final run = replay h (log run) w
  ∧ faithful h (log run) w
  ∧ length (log run) ≤ 20
  ∧ final total = replay (nothrow Exc g) (log total) w
  ∧ length (lookup_names (log total)) = 10
  ∧ length (registrations (log total)) = 10
  ∧ length (log total) = 20
  ∧ log total = forwarded_log plugin_table (lookup_results (log total)).*2
  ∧ result total = Returned tt.
Proof.
  intros run total. subst run total.
  pose proof (RegisterPlugins_result h w) as Hlen.
  rewrite RegisterPlugins_handed_out, RegisterPlugins_lookup_names.
  rewrite <-(length_fmap fst (registrations _)), RegisterPlugins_entered.
  split_and!.
  - apply exec_replay.
  - apply exec_replay.
  - destruct (result (exec h RegisterPlugins w)); lia.
  - apply exec_replay.
  - done.
  - done.
  - rewrite RegisterPlugins_nothrow. cbn [log].
    by rewrite forwarded_log_length by apply RegisterPlugins_pass_length.
  - by rewrite RegisterPlugins_nothrow.
  - by rewrite RegisterPlugins_nothrow.
Qed.

(** C8: for every registry, a registrar obtained by [RegisterPlugins] is
    passed on at once and not kept: each registration receives the registrar
    of the lookup just before it, a registrar is passed to entry points as
    many times as the registry returned it (once when it was handed out
    once), nothing but the unit value comes back from the function, and a
    second call passes the registrars of its own lookups, not those of the
    first call. *)
Theorem RegisterPlugins_registrar_transient {W Exc}
    (g : Registry W) (w : W) :
  let h := nothrow Exc g in
  let run := exec h RegisterPlugins w in
  let both := exec h (RegisterPlugins;; RegisterPlugins) w in
  let fresh := exec (nothrow Exc counter_registry) RegisterPlugins 1%N in
  log run = forwarded_log plugin_table (lookup_results (log run)).*2
  ∧ (registrations (log run)).*2 = (lookup_results (log run)).*2
  ∧ (∀ r, times_passed r (log run) = times_returned r (log run))
  ∧ result run = Returned tt
  ∧ log both = log run ++ log (exec h RegisterPlugins (final run))
  ∧ (registrations (log both)).*2 = (lookup_results (log both)).*2
  ∧ (registrations (log fresh)).*2 = [1; 2; 3; 4; 5; 6; 7; 8; 9; 10]%N
  ∧ (∀ r, times_passed r (log fresh)
          = if decide (r ∈ (lookup_results (log fresh)).*2) then 1 else 0).
Proof.
  intros h run both fresh. subst h run both fresh.
  assert (Hboth : exec (nothrow Exc g) (RegisterPlugins;; RegisterPlugins) w =
            {| final := final (exec (nothrow Exc g) RegisterPlugins
                                 (final (exec (nothrow Exc g) RegisterPlugins w)));
               log := log (exec (nothrow Exc g) RegisterPlugins w)
                      ++ log (exec (nothrow Exc g) RegisterPlugins
                                (final (exec (nothrow Exc g) RegisterPlugins w)));
               result := Returned tt |}).
  { change (exec ?h (_;; _) ?w)
      with (exec h (bind RegisterPlugins (λ _, RegisterPlugins)) w).
    rewrite exec_bind. cbv zeta.
    rewrite !RegisterPlugins_nothrow. done. }
  assert (Hsplit : ∀ evs1 evs2 : list (Event Exc),
            (registrations (evs1 ++ evs2)).*2
            = (registrations evs1).*2 ++ (registrations evs2).*2
            ∧ (lookup_results (evs1 ++ evs2)).*2
              = (lookup_results evs1).*2 ++ (lookup_results evs2).*2).
  { intros evs1 evs2. unfold registrations, lookup_results.
    by rewrite !omap_app, !fmap_app. }
  rewrite Hboth. cbn [final log result].
  unfold times_passed, times_returned.
  split_and!.
  - by rewrite RegisterPlugins_handed_out, RegisterPlugins_nothrow.
  - by rewrite RegisterPlugins_passed, RegisterPlugins_handed_out.
  - intros r. rewrite !(count_fmap snd).
    by rewrite RegisterPlugins_passed, RegisterPlugins_handed_out.
  - by rewrite RegisterPlugins_nothrow.
  - done.
  - destruct (Hsplit (log (exec (nothrow Exc g) RegisterPlugins w))
                (log (exec (nothrow Exc g) RegisterPlugins
                   (final (exec (nothrow Exc g) RegisterPlugins w)))))
      as [-> ->].
    by rewrite !RegisterPlugins_passed, !RegisterPlugins_handed_out.
  - by rewrite RegisterPlugins_passed.
  - intros r. rewrite (count_fmap snd).
    rewrite RegisterPlugins_passed, RegisterPlugins_handed_out.
    apply count_NoDup. apply (bool_decide_unpack _). by vm_compute.
Qed.

(** C9: [RegisterPlugins] does not look at the registrars.  For every
    registry, whatever the lookups return, all ten entry points are entered,
    none is skipped, and each receives the registrar returned for its
    plugin unchanged, a null registrar included: a null pointer is passed on
    as many times as it was returned, and against the registry that returns
    the null pointer for every identifier all ten entry points are entered
    with the null pointer.  Against a host that throws, each entry point
    entered so far received the registrar of the lookup just before it. *)
Theorem RegisterPlugins_null_registrar_forwarded {W Exc}
    (g : Registry W) (h : Host W Exc) (w : W) :
  let run := exec (nothrow Exc g) RegisterPlugins w in
  let nullrun := exec (nothrow Exc null_registry) RegisterPlugins 0 in
  let partial := exec h RegisterPlugins w in
  (registrations (log partial)).*2
  = take (length (registrations (log partial)))
      (lookup_results (log partial)).*2
  ∧ (registrations (log run)).*1 = entry_points
  ∧ Forall2 (λ lk rg, plugin_identifier rg.1 = lk.1 ∧ rg.2 = lk.2)
      (lookup_results (log run)) (registrations (log run))
  ∧ times_passed nullptr (log run) = times_returned nullptr (log run)
  ∧ lookup_results (log nullrun) = (λ id, (id, nullptr)) <$> plugin_names
  ∧ registrations (log nullrun) = (λ f, (f, nullptr)) <$> entry_points
  ∧ times_passed nullptr (log nullrun) = 10
  ∧ final nullrun = 10
  ∧ result nullrun = Returned tt.
Proof.
  intros run nullrun partial. subst run nullrun partial.
  unfold times_passed, times_returned.
  split_and!.
  - rewrite RegisterPlugins_table. apply (registrations_lookup_results h).
  - apply RegisterPlugins_entered.
  - rewrite RegisterPlugins_lookup_results, RegisterPlugins_registrations.
    apply (zip_rows_Forall2 plugin_table), plugin_table_rows.
  - rewrite !(count_fmap snd).
    by rewrite RegisterPlugins_passed, RegisterPlugins_handed_out.
  - by rewrite RegisterPlugins_lookup_results.
  - by rewrite RegisterPlugins_registrations.
  - by rewrite RegisterPlugins_registrations.
  - by rewrite RegisterPlugins_nothrow.
  - by rewrite RegisterPlugins_nothrow.
Qed.

(** C10: the lookups of [RegisterPlugins] do not adapt.  For any two
    registries, over any host states, the identifiers passed to
    [GetRegistrarForPlugin] are the same sequence, the ten literals of the
    source in their order, whatever the lookups return and whatever the
    entry points do.  Against hosts that throw, the lookups made are the
    first ones of that sequence: the i-th lookup is always of the i-th
    literal. *)
Theorem RegisterPlugins_lookups_fixed {W1 W2 Exc1 Exc2}
    (g1 : Registry W1) (g2 : Registry W2)
    (h1 : Host W1 Exc1) (h2 : Host W2 Exc2) (w1 : W1) (w2 : W2) :
  let names1 := lookup_names (log (exec (nothrow Exc1 g1) RegisterPlugins w1)) in
  let names2 := lookup_names (log (exec (nothrow Exc2 g2) RegisterPlugins w2)) in
  let partial1 := lookup_names (log (exec h1 RegisterPlugins w1)) in
  let partial2 := lookup_names (log (exec h2 RegisterPlugins w2)) in
  names1 = names2
  ∧ names1 =
    [ "DartotsuExtensionBridgePluginCApi"; "DesktopWebviewWindowPlugin";
      "FlutterInappwebviewWindowsPluginCApi"; "FlutterQjsPlugin";
      "FlutterSecureStorageWindowsPlugin"; "IsarFlutterLibsPlugin";
      "MediaKitLibsWindowsVideoPluginCApi"; "MediaKitVideoPluginCApi";
      "UrlLauncherWindows"; "WindowToFrontPlugin" ]
  ∧ partial1 = take (length partial1) names1
  ∧ partial2 = take (length partial2) names1
  ∧ take (length partial2) partial1 = take (length partial1) partial2.
Proof.
  intros names1 names2 partial1 partial2.
  assert (H1 : partial1 = take (length partial1) plugin_names).
  { apply prefix_is_take, RegisterPlugins_lookups_prefix. }
  assert (H2 : partial2 = take (length partial2) plugin_names).
  { apply prefix_is_take, RegisterPlugins_lookups_prefix. }
  subst names1 names2. rewrite !RegisterPlugins_lookup_names.
  split_and!; [done|done|done|done|].
  rewrite H1 at 1. rewrite H2 at 2.
  rewrite !take_take. f_equal. lia.
Qed.


(** * Further properties of [RegisterPlugins] *)

(** X1: whenever a call of [RegisterPlugins] returns, also against a host
    whose calls could have thrown, all ten plugins were registered: the ten
    identifiers were looked up in the declared order, the ten entry points
    entered in the declared order, once each, and each with the registrar
    returned by the lookup just before it. *)
Theorem RegisterPlugins_returned_run {W Exc} (h : Host W Exc) (w : W) :
  result (exec h RegisterPlugins w) = Returned tt →
  lookup_names (log (exec h RegisterPlugins w)) = plugin_names
  ∧ (registrations (log (exec h RegisterPlugins w))).*1 = entry_points
  ∧ length (lookup_results (log (exec h RegisterPlugins w))) = 10
  ∧ log (exec h RegisterPlugins w)
    = forwarded_log plugin_table
        (lookup_results (log (exec h RegisterPlugins w))).*2
  ∧ (∀ f, times_entered f (log (exec h RegisterPlugins w)) = 1).
Proof.
  rewrite RegisterPlugins_table. intros Hret.
  destruct (exec_register_all_returned h plugin_table w Hret) as [Hlog Hlen].
  assert (Hnames : lookup_names (log (exec h (register_all plugin_table) w))
                   = plugin_names).
  { rewrite Hlog. rewrite lookup_names_forwarded; [done|].
    by rewrite length_fmap, Hlen. }
  assert (Hentered :
    (registrations (log (exec h (register_all plugin_table) w))).*1
    = entry_points).
  { rewrite Hlog at 1. rewrite registrations_forwarded
      by (by rewrite length_fmap, Hlen).
    apply fst_zip. by rewrite length_fmap, Hlen. }
  split_and!; [done..|].
  intros f. unfold times_entered.
  rewrite (count_fmap fst), Hentered.
  rewrite count_NoDup by apply entry_points_NoDup.
  rewrite decide_True; [done|apply entry_points_all].
Qed.

Lemma RegisterPlugins_returned_run_witness :
  result (exec (host_without "PluginA") RegisterPlugins 0) = Returned tt
  ∧ lookup_names (log (exec (host_without "PluginA") RegisterPlugins 0))
    = plugin_names.
Proof.
  split; [reflexivity|].
  apply (RegisterPlugins_returned_run (host_without "PluginA") 0).
  reflexivity.
Defined.

(** X2: the run of [RegisterPlugins] depends on the host only through the
    ten listed identifiers and the entry points: two hosts whose lookups
    agree on the listed identifiers, and whose entry points agree, give the
    same run, whatever they answer for any other plugin name. *)
Theorem RegisterPlugins_listed_plugins_only {W Exc}
    (h1 h2 : Host W Exc) (w : W) :
  (∀ id, id ∈ plugin_names →
         ∀ w', registrar_for_plugin h1 id w' = registrar_for_plugin h2 id w') →
  (∀ f r w', register_with_registrar h1 f r w'
             = register_with_registrar h2 f r w') →
  exec h1 RegisterPlugins w = exec h2 RegisterPlugins w.
Proof.
  intros Hlk Hen. rewrite RegisterPlugins_table.
  apply exec_register_all_agree; [exact Hlk|].
  intros f _. apply Hen.
Qed.

Lemma RegisterPlugins_listed_plugins_only_witness :
  registrar_for_plugin (host_without "PluginA") "PluginA" 0
  ≠ registrar_for_plugin (host_without "PluginB") "PluginA" 0
  ∧ exec (host_without "PluginA") RegisterPlugins 0
    = exec (host_without "PluginB") RegisterPlugins 0.
Proof.
  split; [discriminate|].
  apply (RegisterPlugins_listed_plugins_only
           (host_without "PluginA") (host_without "PluginB") 0).
  - intros id Hid w'. simpl.
    destruct unlisted_plugin_names as [HA HB].
    rewrite !decide_False; [done| |]; by intros ->.
  - reflexivity.
Defined.

(** X3: a property of the host state that every lookup of a listed
    identifier and every entry point keeps, and that holds when
    [RegisterPlugins] is called, holds when the call ends, whether it
    returns or an exception leaves it. *)
Theorem RegisterPlugins_keeps_host_invariant {W Exc}
    (I : W → Prop) (h : Host W Exc) (w : W) :
  (∀ id w', id ∈ plugin_names → I w' → I (registrar_for_plugin h id w').1) →
  (∀ f r w', I w' → I (register_with_registrar h f r w').1) →
  I w →
  I (final (exec h RegisterPlugins w)).
Proof.
  intros Hlk Hen Hw. rewrite RegisterPlugins_table.
  apply exec_register_all_invariant; [exact Hlk| |exact Hw].
  intros f r w' _. apply Hen.
Qed.

Lemma RegisterPlugins_keeps_host_invariant_witness :
  Forall (λ c, c.1 ∈ plugin_names)
    (final (exec (nothrow unit (mock_registry (λ _, 1%N)))
              RegisterPlugins [])).
Proof.
  apply (RegisterPlugins_keeps_host_invariant
           (λ calls, Forall (λ c, c.1 ∈ plugin_names) calls)
           (nothrow unit (mock_registry (λ _, 1%N))) []).
  - intros id calls _ Hcalls. exact Hcalls.
  - intros f r calls Hcalls. simpl. apply Forall_app. split; [done|].
    constructor; [apply plugin_identifier_listed|constructor].
  - constructor.
Defined.

(** X4: on every run, also one that an exception ends, the registrars the
    lookups returned and the registrations made pair up one to one and in
    order: each registrar returned is passed to the entry point of the
    plugin it was looked up for, so none is obtained and then dropped, and
    at most one lookup, the last, has no registration after it. *)
Theorem RegisterPlugins_lookups_paired {W Exc} (h : Host W Exc) (w : W) :
  Forall2 (λ lk rg, plugin_identifier rg.1 = lk.1 ∧ rg.2 = lk.2)
    (lookup_results (log (exec h RegisterPlugins w)))
    (registrations (log (exec h RegisterPlugins w)))
  ∧ length (registrations (log (exec h RegisterPlugins w)))
    = length (lookup_results (log (exec h RegisterPlugins w)))
  ∧ length (lookup_names (log (exec h RegisterPlugins w)))
    ≤ S (length (registrations (log (exec h RegisterPlugins w)))).
Proof.
  rewrite RegisterPlugins_table.
  destruct (exec_register_all_paired h plugin_table w plugin_table_rows)
    as [Hpairs Hlen].
  split_and!; [done| |done].
  symmetry. by eapply Forall2_length.
Qed.

(** X5: on every run the calls made, as the method or entry point called
    and the identifier asked for, are the first calls of one schedule of
    twenty: lookup and registration of the first plugin, then of the
    second, and so on.  A run that returns made all twenty; a run that an
    exception ends made at least one and stopped there. *)
Theorem RegisterPlugins_follows_schedule {W Exc} (h : Host W Exc) (w : W) :
  shape <$> log (exec h RegisterPlugins w)
  = take (length (log (exec h RegisterPlugins w))) schedule
  ∧ length schedule = 20
  ∧ match result (exec h RegisterPlugins w) with
    | Returned _ =>
        shape <$> log (exec h RegisterPlugins w) = schedule
    | Threw _ => 1 ≤ length (log (exec h RegisterPlugins w)) ≤ 20
    end.
Proof.
  pose proof (RegisterPlugins_result h w) as Hres.
  assert (Hsched : shape <$> log (exec h RegisterPlugins w)
                   = take (length (log (exec h RegisterPlugins w))) schedule).
  { rewrite RegisterPlugins_table. apply exec_register_all_schedule. }
  split_and!; [done|done|].
  destruct (result (exec h RegisterPlugins w)); [|done].
  rewrite Hsched, Hres. done.
Qed.

(** X6: a missing plugin stops the registration there.  When the lookup of
    the listed identifier at position [i] throws in every host state, the
    call of [RegisterPlugins] throws, at most the [i] entry points of the
    plugins listed before it were entered, in the declared order, and no
    identifier after it was looked up. *)
Theorem RegisterPlugins_missing_plugin {W Exc}
    (h : Host W Exc) (w : W) (i : nat) (id : string) :
  plugin_names !! i = Some id →
  (∀ w', failed (registrar_for_plugin h id w').2 = true) →
  failed (result (exec h RegisterPlugins w)) = true
  ∧ (registrations (log (exec h RegisterPlugins w))).*1
    `prefix_of` take i entry_points
  ∧ lookup_names (log (exec h RegisterPlugins w))
    `prefix_of` take (S i) plugin_names.
Proof.
  intros Hi Hmiss.
  pose proof (RegisterPlugins_entered_prefix h w) as Hen.
  pose proof (RegisterPlugins_lookups_prefix h w) as Hlk.
  rewrite RegisterPlugins_table in *.
  destruct (exec_register_all_missing h plugin_table w i id Hi Hmiss)
    as (Hres & Hn & Hm).
  split_and!; [done| |].
  - rewrite (prefix_is_take _ _ Hen). apply take_prefix_le.
    by rewrite length_fmap.
  - rewrite (prefix_is_take _ _ Hlk). by apply take_prefix_le.
Qed.

Lemma RegisterPlugins_missing_plugin_witness :
  plugin_names !! 3 = Some "FlutterQjsPlugin"
  ∧ result (exec (host_without "FlutterQjsPlugin") RegisterPlugins 0)
    = Threw "plugin not found"
  ∧ (registrations
       (log (exec (host_without "FlutterQjsPlugin") RegisterPlugins 0))).*1
    `prefix_of` take 3 entry_points.
Proof.
  split; [reflexivity|]. split; [reflexivity|].
  apply (RegisterPlugins_missing_plugin
           (host_without "FlutterQjsPlugin") 0 3 "FlutterQjsPlugin").
  - reflexivity.
  - intros w'. reflexivity.
Defined.
